(** * exptools2: session log reconciliation, settings loading, session saving

    A shallow embedding of [exptools2/session.py] ([Session.close],
    [Session._load_settings]) and [exptools2/utils.py] ([save_experiment]).

    Python floats are IEEE binary64 numbers and are modelled by the kernel's
    primitive floats; pandas' null marker [np.nan] is [nan].  Python lists are
    lists, insertion-ordered dicts with string keys are association lists, and
    the file system touched by the code is an explicit store threaded through
    a small state-and-exception monad. *)

From Stdlib Require Import PrimFloat ZArith Lia.
From stdpp Require Import base option list strings gmap.

Set Warnings "-register-all,-inexact-float".

Open Scope string_scope.

(** ** Python values, exceptions and the effect monad *)

Module Py.

(** A raised exception.  [Exc] is an exception raised by the modelled source
    itself: by one of its [raise] statements, or by the interpreter while it
    evaluates one of its expressions (indexing, subscripting).  [LibExc] is
    an exception raised inside a call into an external library ([pandas],
    [pickle], [joblib]) and propagated unchanged through the caller. *)
Inductive exc : Type :=
| Exc (cls msg : string)
| LibExc (lib cls msg : string).

Inductive outcome (A : Type) : Type :=
| Return (a : A)
| Raise (e : exc).
Arguments Return {A} a.
Arguments Raise {A} e.

(** YAML documents after [yaml.load], and Python's [None]. *)
Inductive value : Type :=
| PNone
| PBool (b : bool)
| PInt (z : Z)
| PStr (s : string)
| PList (items : list value)
| PDict (items : list (string * value)).

(** What a file in the store holds.  Serialisation to text is left
    symbolic: a [.tsv] file holds the table that [to_csv] was given, a
    [.yml] file the value that [yaml.dump] was given. *)
Inductive content (Table : Type) : Type :=
| Bytes (b : list Byte.byte)
| Yaml (v : value)
| Tsv (t : Table).
Arguments Bytes {Table} b.
Arguments Yaml {Table} v.
Arguments Tsv {Table} t.

Record FS (Table : Type) : Type := mkFS {
  dirs : gset string;
  files : gmap string (content Table) }.
Arguments mkFS {Table} dirs files.
Arguments dirs {Table} f.
Arguments files {Table} f.

(** Computations that read and write the store and may raise.  The store
    survives a raise: whatever was written before the exception stays. *)
Definition M (St A : Type) : Type := St -> St * outcome A.

Definition ret {St A} (a : A) : M St A := fun st => (st, Return a).
Definition raise {St A} (e : exc) : M St A := fun st => (st, Raise e).
Definition bind {St A B} (m : M St A) (k : A -> M St B) : M St B :=
  fun st =>
    match m st with
    | (st', Return a) => k a st'
    | (st', Raise e) => (st', Raise e)
    end.
Definition modify {St} (f : St -> St) : M St unit := fun st => (f st, Return tt).
Definition get {St} : M St St := fun st => (st, Return st).
Definition lift {St A} (o : outcome A) : M St A := fun st => (st, o).

(** The class name of an exception. *)
Definition exc_class (e : exc) : string :=
  match e with
  | Exc cls _ => cls
  | LibExc _ cls _ => cls
  end.

(** [posixpath.join] of two components. *)
Definition op_join (a b : string) : string :=
  if String.prefix "/" b then b
  else if String.eqb a "" then b
  else if String.eqb (String.substring (String.length a - 1) 1 a) "/" then a ++ b
  else a ++ "/" ++ b.

(** [os.makedirs(d)] guarded by [op.isdir(d)]. *)
Definition makedirs_if_missing {T} (d : string) : M (FS T) unit :=
  modify (fun fs => if decide (d ∈ dirs fs) then fs
                    else mkFS ({[d]} ∪ dirs fs) (files fs)).

(** Opening [path] for writing and writing [c]: the file is created or
    overwritten. *)
Definition write_file {T} (path : string) (c : content T) : M (FS T) unit :=
  modify (fun fs => mkFS (dirs fs) (<[path := c]> (files fs))).

End Py.

Declare Scope py_scope.
Delimit Scope py_scope with py.
Notation "x <- m ;; k" := (Py.bind m (fun x => k))
(at level 100, m at next level, right associativity) : py_scope.
Notation "m ;;; k" := (Py.bind m (fun _ => k))
(at level 100, right associativity) : py_scope.

(** ** utils.py *)

Module Utils.
Import Py.

Section SaveExperiment.
(** The object being saved and the table type of the store are arbitrary. *)
Context {Obj Table : Type}.

(** The two serialisers are external.  [pickle.dump(obj, f)] sends some
      bytes to the open file and then either returns or raises;
      [joblib.dump(obj, path)] acts on the store as a whole. *)
Record Serializers : Type := {
    pickle_dump : Obj -> list Byte.byte * option (string * string);
    joblib_dump : Obj -> string -> FS Table -> FS Table * option (string * string) }.

Variable env : Serializers.

Definition engine_not_recognized : exc :=
    Exc "ValueError" "Engine not recognized, use 'pickle' or 'joblib'".

Definition save_experiment (session : Obj) (output_str : string) (engine : string)
    : M (FS Table) unit :=
    if String.eqb engine "pickle" then
      (* with open(output_str + '.pkl', 'w') as f_out: *)
      (write_file (output_str ++ ".pkl") (Bytes []) ;;;
       (* pickle.dump(session, f_out) *)
       let '(written, err) := pickle_dump env session in
       write_file (output_str ++ ".pkl") (Bytes written) ;;;
       match err with
       | None => ret tt
       | Some (cls, msg) => raise (LibExc "pickle" cls msg)
       end)%py
    else if String.eqb engine "joblib" then
      (fun fs =>
         let '(fs', err) := joblib_dump env session (output_str ++ ".jl") fs in
         match err with
         | None => (fs', Return tt)
         | Some (cls, msg) => (fs', Raise (LibExc "joblib" cls msg))
         end)
    else
      raise engine_not_recognized.

End SaveExperiment.
Arguments Serializers : clear implicits.

(** Serialisers that write nothing and never raise, and an empty store. *)
Definition quiet_serializers : Serializers unit unit :=
  {| pickle_dump := fun _ => ([], None);
     joblib_dump := fun _ _ fs => (fs, None) |}.

Definition no_files : FS unit := mkFS ∅ ∅.

End Utils.

(** ** session.py: the event log and the table built from it *)

(** [self.log]: a dict of six equally named lists, one entry per logged event. *)
Module Log.
Record t : Type := mk {
  trial_nr : list Z;
  onset : list float;
  event_type : list string;
  phase : list Py.value;
  response : list Py.value;
  nr_frames : list Z }.
End Log.

(** The table that [close] builds and writes: the five data columns of the
    log under the [trial_nr] index, then the two derived columns. *)
Module DataFrame.
Record t : Type := mk {
  index : list Z;
  onset : list float;
  event_type : list string;
  phase : list Py.value;
  response : list Py.value;
  nr_frames : list Z;
  onset_abs : list float;
  duration : list float }.
End DataFrame.

(** The pandas and numpy operations [close] relies on, on columns as lists. *)
Module Pandas.
Import Py.

(** [lst[-1]] on a Python list. *)
Definition getitem_last {A} (l : list A) : outcome A :=
  match last l with
  | Some x => Return x
  | None => Raise (Exc "IndexError" "list index out of range")
  end.

(** [pd.DataFrame(d)] accepts a dict of lists only when all lists have one
    length. *)
Definition same_length (l : Log.t) : bool :=
  let n := length (Log.trial_nr l) in
  Nat.eqb (length (Log.onset l)) n && Nat.eqb (length (Log.event_type l)) n
  && Nat.eqb (length (Log.phase l)) n && Nat.eqb (length (Log.response l)) n
  && Nat.eqb (length (Log.nr_frames l)) n.

Definition DataFrame_check (l : Log.t) : outcome unit :=
  if same_length l then Return tt
  else Raise (LibExc "pandas" "ValueError" "All arrays must be of the same length").

(** [series + scalar]. *)
Definition series_add (col : list float) (x : float) : list float :=
  map (fun o => PrimFloat.add o x) col.

(** [series != s], a boolean column. *)
Definition series_ne (col : list string) (s : string) : list bool :=
  map (fun e => negb (String.eqb e s)) col.

(** [df.loc[mask, col]]: the entries at the rows where the mask holds, in row
    order. *)
Fixpoint loc_get {A} (mask : list bool) (col : list A) : list A :=
  match mask, col with
  | b :: mask', x :: col' =>
      if b then x :: loc_get mask' col' else loc_get mask' col'
  | _, _ => []
  end.

(** [series.diff()]: the first entry is null, entry [k] is [x[k] - x[k-1]]. *)
Definition diff (col : list float) : list float :=
  match col with
  | [] => []
  | _ :: rest => nan :: zip_with PrimFloat.sub rest col
  end.

(** [np.append(arr, x)]. *)
Definition np_append {A} (arr : list A) (x : A) : list A := arr ++ [x].

(** Writing [vals], in order, into the rows of [col] where the mask holds. *)
Fixpoint scatter {A} (mask : list bool) (col vals : list A) : list A :=
  match mask, col with
  | true :: mask', x :: col' =>
      match vals with
      | v :: vals' => v :: scatter mask' col' vals'
      | [] => x :: col'
      end
  | false :: mask', x :: col' => x :: scatter mask' col' vals
  | _, _ => col
  end.

Definition count_true (mask : list bool) : nat := length (filter (fun b => b = true) mask).

(** [df.loc[mask, col] = vals] with an array on the right.  The array is
    written row by row when it has one value per selected row.  When no row
    is selected, an array of length one (taken as a scalar for the column) or
    of the length of the whole table writes nothing.  Any other length is
    refused by pandas. *)
Definition loc_set {A} (mask : list bool) (col vals : list A) : outcome (list A) :=
  let n := count_true mask in
  if Nat.eqb (length vals) n then Return (scatter mask col vals)
  else if Nat.eqb n 0 && (Nat.eqb (length vals) 1 || Nat.eqb (length vals) (length col))
  then Return col
  else Raise (LibExc "pandas" "ValueError"
                "Must have equal len keys and value when setting with an iterable").

End Pandas.

(** ** session.py: [Session.close] *)

Module Session.
Import Py Pandas.

(** The attributes of a session that [close] reads.  [exp_start] is the clock
    reading stored by [_set_exp_start]: the session is one whose
    [start_experiment] has run.  [nr_frames] is the live frame counter. *)
Record t : Type := mk {
  output_str : string;
  output_dir : string;
  exp_start : float;
  log : Log.t;
  nr_frames : Z }.

Definition tsv_path (self : t) : string :=
  op_join (output_dir self) (output_str self ++ ".tsv").

(** [close], from its first statement down to [to_csv].  [clock] is the
    reading of [self.clock.getTime()] taken by [_set_exp_stop] on the last
    flip.  The value returned is the table left in [self.log].  The
    statements after [to_csv] (the frame-interval plot, stopping the MRI
    simulator, [core.quit()]) touch neither the log nor the [.tsv] file. *)
Definition close (self : t) (clock : float) : M (FS DataFrame.t) DataFrame.t :=
  (* self.win.callOnFlip(self._set_exp_stop); self.win.flip(clearBuffer=True) *)
  let exp_stop := clock in
  (* dur_last_phase = self.exp_stop - self.log['onset'][-1] *)
  (last_onset <- lift (getitem_last (Log.onset (log self))) ;;
   let dur_last_phase := PrimFloat.sub exp_stop last_onset in
   (* if not op.isdir(self.output_dir): os.makedirs(self.output_dir) *)
   makedirs_if_missing (output_dir self) ;;;
   (* self.log = pd.DataFrame(self.log).set_index('trial_nr') *)
   lift (DataFrame_check (log self)) ;;;
   let index := Log.trial_nr (log self) in
   let onset := Log.onset (log self) in
   let event_type := Log.event_type (log self) in
   (* self.log['onset_abs'] = self.log['onset'] + self.exp_start *)
   let onset_abs := series_add onset (exp_start self) in
   (* self.log['duration'] = np.nan *)
   let duration := replicate (length index) nan in
   (* nonresp_idx = self.log.event_type != 'response' *)
   let nonresp_idx := series_ne event_type "response" in
   (* durations = np.append(self.log.loc[nonresp_idx, 'onset'].diff().values[1:],
                            dur_last_phase) *)
   let durations := np_append (drop 1 (diff (loc_get nonresp_idx onset))) dur_last_phase in
   (* self.log.loc[nonresp_idx, 'duration'] = durations *)
   duration <- lift (loc_set nonresp_idx duration durations) ;;
   (* nr_frames = np.append(self.log.loc[nonresp_idx, 'nr_frames'].values[1:],
                            self.nr_frames) *)
   let nr_frames_new :=
     np_append (drop 1 (loc_get nonresp_idx (Log.nr_frames (log self)))) (nr_frames self) in
   (* self.log.loc[nonresp_idx, 'nr_frames'] = nr_frames.astype(int) *)
   nr_frames_col <- lift (loc_set nonresp_idx (Log.nr_frames (log self)) nr_frames_new) ;;
   let df := DataFrame.mk index onset event_type (Log.phase (log self))
               (Log.response (log self)) nr_frames_col onset_abs duration in
   (* self.log.to_csv(f_out, sep='\t', index=True) *)
   write_file (tsv_path self) (Tsv df) ;;;
   ret df)%py.

(** The mask [close] computes: the rows that are not responses. *)
Definition nonresp_idx (l : Log.t) : list bool := series_ne (Log.event_type l) "response".

(** The spec's example run: three events, the last one a response. *)
Definition example_log : Log.t :=
  Log.mk [0; 1; 2]%Z [0.0; 2.0; 2.05]%float ["instruction"; "stim"; "response"]
    [PInt 0; PInt 1; PInt 1] [PNone; PNone; PNone] [5; 8; 0]%Z.

Definition example_session (frames : Z) : t :=
  mk "sub-01_run-1" "/home/exp/logs" 100.0%float example_log frames.

(** The table [close] leaves for the example run when the frame counter
    reads [frames]. *)
Definition example_table (frames : Z) : DataFrame.t :=
  DataFrame.mk [0; 1; 2]%Z [0.0; 2.0; 2.05]%float ["instruction"; "stim"; "response"]
    [PInt 0; PInt 1; PInt 1] [PNone; PNone; PNone] [8; frames; 0]%Z
    [100.0; 102.0; 102.05]%float [2.0; 101.95; nan]%float.

(** The rows of a table that are not responses. *)
Definition nonresp_rows (df : DataFrame.t) : list bool :=
  series_ne (DataFrame.event_type df) "response".



Definition empty_log : Log.t := Log.mk [] [] [] [] [] [].

(** A session that logged nothing before [close]. *)
Definition empty_session : t := mk "sub-01_run-1" "/home/exp/logs" 100.0%float empty_log 0.

Definition empty_fs : FS DataFrame.t := mkFS ∅ ∅.

End Session.

(** ** session.py: [Session._load_settings] *)

Module Settings.
Import Py.

(** [d[k]] as a lookup in an insertion-ordered dict with string keys. *)
Fixpoint dict_get {A} (k : string) (d : list (string * A)) : option A :=
  match d with
  | [] => None
  | (k', v) :: d' => if String.eqb k k' then Some v else dict_get k d'
  end.

(** [d[k] = v]: an existing key keeps its place, a new key goes last. *)
Fixpoint dict_set {A} (k : string) (v : A) (d : list (string * A)) : list (string * A) :=
  match d with
  | [] => [(k, v)]
  | (k', v') :: d' => if String.eqb k k' then (k, v) :: d' else (k', v') :: dict_set k v d'
  end.

(** The effect of [d.update(u)] on [d], for a mapping [u]. *)
Definition dict_merge {A} (d u : list (string * A)) : list (string * A) :=
  fold_left (fun acc kv => dict_set kv.1 kv.2 acc) u d.

(** What the constructor sees of the machine: the YAML files on disk, by
    path, each as the document [yaml.load] reads from it; the directories;
    and the attributes of the global [psychopy.prefs] object, each a dict. *)
Record World : Type := mkWorld {
  yaml_files : gmap string value;
  directories : gset string;
  psychopy_prefs : list (string * list (string * value)) }.

(** The attributes of the session under construction that matter here. *)
Record self : Type := mkSelf {
  output_str : string;
  output_dir : string;
  settings_file : option string }.

Definition type_name (v : value) : string :=
  match v with
  | PNone => "NoneType"
  | PBool _ => "bool"
  | PInt _ => "int"
  | PStr _ => "str"
  | PList _ => "list"
  | PDict _ => "dict"
  end.

(** [v.items()]. *)
Definition items (v : value) : outcome (list (string * value)) :=
  match v with
  | PDict d => Return d
  | _ => Raise (Exc "AttributeError"
                  ("'" ++ type_name v ++ "' object has no attribute 'items'"))
  end.

(** [v[k]] for a string [k]. *)
Definition getitem (v : value) (k : string) : outcome value :=
  match v with
  | PDict d =>
      match dict_get k d with
      | Some x => Return x
      | None => Raise (Exc "KeyError" ("'" ++ k ++ "'"))
      end
  | PNone => Raise (Exc "TypeError" "'NoneType' object is not subscriptable")
  | PBool _ => Raise (Exc "TypeError" "'bool' object is not subscriptable")
  | PInt _ => Raise (Exc "TypeError" "'int' object is not subscriptable")
  | PStr _ => Raise (Exc "TypeError" "string indices must be integers")
  | PList _ => Raise (Exc "TypeError" "list indices must be integers or slices, not str")
  end.

(** The body of the inner loop for one [key, value] pair: [getattr], item
    assignment, [setattr]. *)
Definition set_pref (preftype key : string) (val : value) : M World unit :=
  fun w =>
    match dict_get preftype (psychopy_prefs w) with
    | Some pref_subclass =>
        (mkWorld (yaml_files w) (directories w)
           (dict_set preftype (dict_set key val pref_subclass) (psychopy_prefs w)),
         Return tt)
    | None =>
        (w, Raise (Exc "AttributeError"
                     ("'Preferences' object has no attribute '" ++ preftype ++ "'")))
    end.

(** [for key, value in these_settings.items(): ...] *)
Fixpoint set_prefs_of_type (preftype : string) (these_settings : list (string * value))
  : M World unit :=
  match these_settings with
  | [] => ret tt
  | (key, val) :: more =>
      (set_pref preftype key val ;;; set_prefs_of_type preftype more)%py
  end.

(** [for preftype, these_settings in exp_prefs.items(): ...] *)
Fixpoint set_prefs (exp_prefs : list (string * value)) : M World unit :=
  match exp_prefs with
  | [] => ret tt
  | (preftype, these_settings) :: more =>
      (kvs <- lift (items these_settings) ;;
       set_prefs_of_type preftype kvs ;;;
       set_prefs more)%py
  end.

Section LoadSettings.

(** The bundled [data/default_settings.yml] is not part of the sources: its
    parsed mapping is a parameter. *)
Variable default_settings : list (string * value).

(** [dict.update] also accepts a sequence of key-value pairs.  What it does
    with a string or a list is left open: it returns the updated dict or
    raises. *)
Variable update_from_sequence : list (string * value) -> value -> outcome (list (string * value)).

(** [d.update(other)]: the dict after the call, or the exception.  The call
    itself evaluates to [None]. *)
Definition dict_update (d : list (string * value)) (other : value)
  : outcome (list (string * value)) :=
  match other with
  | PDict u => Return (dict_merge d u)
  | PNone => Raise (Exc "TypeError" "'NoneType' object is not iterable")
  | PBool _ => Raise (Exc "TypeError" "'bool' object is not iterable")
  | PInt _ => Raise (Exc "TypeError" "'int' object is not iterable")
  | PStr _ | PList _ => update_from_sequence d other
  end.

Definition settings_out (s : self) : string :=
  op_join (output_dir s) (output_str s ++ "_expsettings.yml").

(** [_load_settings].  The result is the value bound to [settings] at the
    [return]. *)
Definition _load_settings (s : self) : M World value :=
  (* default_settings = yaml.load(f_in) *)
  ((* if self.settings_file is None: settings = default_settings *)
   settings <-
     match settings_file s with
     | None => ret (PDict default_settings)
     | Some path =>
         w <- get ;;
         (* if not op.isfile(self.settings_file): raise IOError(...) *)
         match yaml_files w !! path with
         | None =>
             raise (Exc "IOError" ("Settings-file (" ++ path ++ ") does not exist!"))
         | Some user_settings =>
             (* settings = default_settings.update(user_settings) *)
             _updated <- lift (dict_update default_settings user_settings) ;;
             ret PNone
         end
     end ;;
   (* if not op.isdir(self.output_dir): os.makedirs(self.output_dir) *)
   modify (fun w =>
             if decide (output_dir s ∈ directories w) then w
             else mkWorld (yaml_files w) ({[output_dir s]} ∪ directories w)
                    (psychopy_prefs w)) ;;;
   (* yaml.dump(settings, f_out, indent=4, default_flow_style=False) *)
   modify (fun w =>
             mkWorld (<[settings_out s := settings]> (yaml_files w)) (directories w)
               (psychopy_prefs w)) ;;;
   (* exp_prefs = settings['preferences'] *)
   exp_prefs <- lift (getitem settings "preferences") ;;
   kvs <- lift (items exp_prefs) ;;
   set_prefs kvs ;;;
   ret settings)%py.

End LoadSettings.

(** A run with a user settings file that overrides the window size. *)
Definition example_defaults : list (string * value) :=
  [("preferences", PDict [("general", PDict [("audioLib", PStr "sounddevice")])]);
   ("window", PDict [("size", PList [PInt 1920; PInt 1080])]);
   ("mouse", PDict [("visible", PBool false)])].

Definition example_user_settings : value :=
  PDict [("window", PDict [("size", PList [PInt 800; PInt 600])])].

Definition example_world : World :=
  mkWorld {["/home/exp/my_settings.yml" := example_user_settings]} ∅
    [("general", [("audioLib", PStr "pyo")])].

Definition example_self : self :=
  mkSelf "sub-01_run-1" "/home/exp/logs" (Some "/home/exp/my_settings.yml").

End Settings.

(** ** Further example runs *)

Module Examples.
Import Py.






Definition missing_self : Settings.self :=
  Settings.mkSelf "sub-01_run-1" "/home/exp/logs" (Some "/home/exp/absent.yml").


Definition no_update : list (string * value) -> value -> outcome (list (string * value)) :=
  fun d _ => Return d.

End Examples.

(** * Properties *)

(** ** Columns, masks and forward differences *)

Module PandasFacts.
Import Py Pandas.

Section Masks.
Context {A : Type}.
Implicit Types (mask : list bool) (col vals : list A).

Lemma scatter_length mask col vals : length (scatter mask col vals) = length col.
Proof.
  revert col vals.
  induction mask as [|[] mask IH]; intros [|x col] [|v vals];
    cbn [scatter length]; try done; f_equal; apply IH.
Qed.

Lemma scatter_nil mask col : scatter mask col [] = col.
Proof.
  revert col.
  induction mask as [|[] mask IH]; intros [|x col]; cbn [scatter]; try done.
  f_equal. apply IH.
Qed.

Lemma loc_get_length mask col :
  length mask = length col -> length (loc_get mask col) = count_true mask.
Proof.
  unfold count_true. revert col.
  induction mask as [|[] mask IH]; intros [|x col] Hlen; try done.
  - rewrite filter_cons_True by done. simpl in *. f_equal. apply IH. lia.
  - rewrite filter_cons_False by done. simpl in *. apply IH. lia.
Qed.

(** Rows outside the mask keep what they held. *)
Lemma scatter_unselected mask col vals i :
  mask !! i = Some false -> scatter mask col vals !! i = col !! i.
Proof.
  revert col vals i.
  induction mask as [|[] mask IH]; intros [|x col] [|v vals] [|i] Hi;
    cbn [scatter]; try done; simpl in *; by apply IH.
Qed.

(** Reading the selected rows back gives the values written. *)
Lemma loc_get_scatter mask col vals :
  length mask = length col -> length vals = count_true mask ->
  loc_get mask (scatter mask col vals) = vals.
Proof.
  unfold count_true. revert col vals.
  induction mask as [|[] mask IH]; intros [|x col] vals Hlen Hn; try done.
  - by destruct vals.
  - rewrite filter_cons_True in Hn by done.
    destruct vals as [|v vals]; simpl in *; [done|].
    f_equal. apply IH; lia.
  - rewrite filter_cons_False in Hn by done. simpl in *. apply IH; lia.
Qed.

Lemma loc_set_unselected mask col vals col' i :
  loc_set mask col vals = Return col' ->
  mask !! i = Some false -> col' !! i = col !! i.
Proof.
  unfold loc_set. intros H Hi.
  destruct (Nat.eqb (length vals) (count_true mask)).
  - injection H as <-. by apply scatter_unselected.
  - destruct (_ && _); [|done]. by injection H as <-.
Qed.

Lemma loc_set_length mask col vals col' :
  loc_set mask col vals = Return col' -> length col' = length col.
Proof.
  unfold loc_set. intros H.
  destruct (Nat.eqb (length vals) (count_true mask)).
  - injection H as <-. apply scatter_length.
  - destruct (_ && _); [|done]. by injection H as <-.
Qed.

(** When at least one row is selected, the selected rows hold exactly the
    array that was assigned. *)
Lemma loc_set_selected mask col vals col' :
  loc_set mask col vals = Return col' ->
  length mask = length col -> count_true mask <> 0 ->
  loc_get mask col' = vals.
Proof.
  unfold loc_set. intros H Hlen Hn.
  destruct (Nat.eqb_spec (length vals) (count_true mask)) as [Heq|_].
  - injection H as <-. by apply loc_get_scatter.
  - destruct (Nat.eqb_spec (count_true mask) 0); [done|]. done.
Qed.


End Masks.

Lemma series_ne_length col s : length (series_ne col s) = length col.
Proof. unfold series_ne. by rewrite length_map. Qed.

Lemma series_ne_false col s i :
  col !! i = Some s -> series_ne col s !! i = Some false.
Proof.
  intros H. unfold series_ne. rewrite list_lookup_fmap, H. simpl.
  by rewrite String.eqb_refl.
Qed.




End PandasFacts.

(** ** [Session.close] *)

Module SessionFacts.
Import Py Pandas PandasFacts Session.

(** What a successful [close] pins down about the table, column by column. *)
Lemma close_finalized self clock fs df :
  snd (close self clock fs) = Return df ->
  exists last_onset,
    last (Log.onset (log self)) = Some last_onset
    /\ same_length (log self) = true
    /\ DataFrame.onset df = Log.onset (log self)
    /\ DataFrame.event_type df = Log.event_type (log self)
    /\ DataFrame.onset_abs df = series_add (Log.onset (log self)) (exp_start self)
    /\ loc_set (nonresp_idx (log self))
         (replicate (length (Log.trial_nr (log self))) nan)
         (np_append
            (drop 1 (diff (loc_get (nonresp_idx (log self)) (Log.onset (log self)))))
            (PrimFloat.sub clock last_onset))
       = Return (DataFrame.duration df)
    /\ loc_set (nonresp_idx (log self)) (Log.nr_frames (log self))
         (np_append
            (drop 1 (loc_get (nonresp_idx (log self)) (Log.nr_frames (log self))))
            (nr_frames self))
       = Return (DataFrame.nr_frames df).
Proof.
  unfold close, bind, lift, getitem_last, DataFrame_check, makedirs_if_missing,
    write_file, modify, ret.
  fold (nonresp_idx (log self)).
  destruct (last (Log.onset (log self))) as [last_onset|] eqn:Hlast; [|done].
  destruct (same_length (log self)) eqn:Hsame; [|done].
  destruct (loc_set _ (replicate _ _) _) as [duration|] eqn:Hdur; [|done].
  destruct (loc_set _ (Log.nr_frames _) _) as [frames|] eqn:Hfr; [|done].
  simpl. intros [= <-]. exists last_onset. simpl. by repeat split.
Qed.

Lemma same_length_spec l :
  same_length l = true ->
  length (Log.onset l) = length (Log.trial_nr l)
  /\ length (Log.event_type l) = length (Log.trial_nr l)
  /\ length (Log.nr_frames l) = length (Log.trial_nr l).
Proof.
  unfold same_length. intros H.
  repeat (apply andb_prop in H as [H ?]).
  repeat match goal with E : Nat.eqb _ _ = true |- _ => apply Nat.eqb_eq in E end.
  auto.
Qed.

Lemma nonresp_idx_length l : length (nonresp_idx l) = length (Log.event_type l).
Proof. apply series_ne_length. Qed.



End SessionFacts.

(** ** The finalized table *)

Module SessionSpec.
Import Py Pandas PandasFacts Session SessionFacts.

Local Open Scope float_scope.

(** Facts shared by the statements below: the mask of the table is the mask
    of the log, and it is as long as every column. *)
Lemma nonresp_rows_log self clock fs df :
  snd (close self clock fs) = Return df -> nonresp_rows df = nonresp_idx (log self).
Proof.
  intros H. destruct (close_finalized _ _ _ _ H) as (lo & _ & _ & _ & Hev & _).
  unfold nonresp_rows, nonresp_idx. by rewrite Hev.
Qed.

Lemma nonresp_idx_rows l :
  same_length l = true -> length (nonresp_idx l) = length (Log.trial_nr l).
Proof.
  intros H. destruct (same_length_spec _ H) as (_ & Hev & _).
  by rewrite nonresp_idx_length.
Qed.


Lemma close_frames self clock fs df :
  snd (close self clock fs) = Return df ->
  loc_get (nonresp_rows df) (DataFrame.nr_frames df) <> [] ->
  loc_get (nonresp_rows df) (DataFrame.nr_frames df)
  = (drop 1 (loc_get (nonresp_idx (log self)) (Log.nr_frames (log self)))
       ++ [nr_frames self])%list.
Proof.
  intros H Hne. rewrite (nonresp_rows_log _ _ _ _ H) in *.
  destruct (close_finalized _ _ _ _ H) as (lo & _ & Hsame & _ & _ & _ & _ & Hfr).
  destruct (same_length_spec _ Hsame) as (_ & _ & Hlen).
  assert (Hmask := nonresp_idx_rows _ Hsame).
  apply (loc_set_selected _ _ _ _ Hfr); [congruence|].
  rewrite <- (loc_get_length _ (DataFrame.nr_frames df)).
  - by destruct (loc_get _ _).
  - rewrite (loc_set_length _ _ _ _ Hfr). congruence.
Qed.





(** C3.  Every row of the finished table whose [event_type] is ["response"]
    has the null marker in its [duration], wherever the row stands. *)
Theorem close_response_duration_null self clock fs df i :
  snd (close self clock fs) = Return df ->
  DataFrame.event_type df !! i = Some "response" ->
  DataFrame.duration df !! i = Some nan.
Proof.
  intros H Hi.
  destruct (close_finalized _ _ _ _ H) as (lo & _ & Hsame & _ & Hev & _ & Hset & _).
  destruct (same_length_spec _ Hsame) as (_ & Hlen & _).
  rewrite Hev in Hi.
  rewrite (loc_set_unselected _ _ _ _ i Hset) by by apply series_ne_false.
  apply lookup_replicate_2. apply lookup_lt_Some in Hi. lia.
Qed.

Lemma close_response_duration_null_witness :
  DataFrame.duration (example_table 3) !! 2%nat = Some nan.
Proof.
  apply (close_response_duration_null (example_session 3) 104.0 empty_fs (example_table 3) 2);
    vm_compute; reflexivity.
Defined.



(** C5.  Among the rows that are not responses, taken in order, the finished
    [nr_frames] of row [k] is the logged [nr_frames] of row [k+1], and the
    finished [nr_frames] of the last such row is the live frame counter. *)
Theorem close_nr_frames_shift self clock fs df :
  snd (close self clock fs) = Return df ->
  (forall k z,
      loc_get (nonresp_idx (log self)) (Log.nr_frames (log self)) !! S k = Some z ->
      loc_get (nonresp_rows df) (DataFrame.nr_frames df) !! k = Some z)
  /\ (forall n,
        length (loc_get (nonresp_rows df) (DataFrame.nr_frames df)) = S n ->
        loc_get (nonresp_rows df) (DataFrame.nr_frames df) !! n = Some (nr_frames self)).
Proof.
  intros H.
  destruct (close_finalized _ _ _ _ H) as (lo & _ & Hsame & _ & _ & _ & _ & Hset).
  destruct (same_length_spec _ Hsame) as (_ & _ & Hlen).
  assert (Hmask := nonresp_idx_rows _ Hsame).
  assert (Hcount :
    length (loc_get (nonresp_rows df) (DataFrame.nr_frames df))
    = length (loc_get (nonresp_idx (log self)) (Log.nr_frames (log self)))).
  { rewrite (nonresp_rows_log _ _ _ _ H), !loc_get_length; [done|congruence|].
    rewrite (loc_set_length _ _ _ _ Hset). congruence. }
  split.
  - intros k z Hk. rewrite (close_frames _ _ _ _ H).
    + rewrite lookup_app_l by (rewrite length_drop; apply lookup_lt_Some in Hk; lia).
      by rewrite lookup_drop.
    + apply lookup_lt_Some in Hk. intros E. rewrite E in Hcount. simpl in Hcount. lia.
  - intros n Hn. rewrite (close_frames _ _ _ _ H) by (intros E; by rewrite E in Hn).
    rewrite lookup_app_r by (rewrite length_drop; lia).
    rewrite length_drop, <- Hcount, Hn.
    by replace (n - (S n - 1))%nat with 0%nat by lia.
Qed.

Lemma close_nr_frames_shift_witness :
  loc_get (nonresp_rows (example_table 3)) (DataFrame.nr_frames (example_table 3)) !! 0%nat
  = Some 8%Z
  /\ loc_get (nonresp_rows (example_table 3)) (DataFrame.nr_frames (example_table 3)) !! 1%nat
     = Some 3%Z.
Proof.
  split.
  - apply (close_nr_frames_shift (example_session 3) 104.0 empty_fs (example_table 3));
      vm_compute; reflexivity.
  - apply (close_nr_frames_shift (example_session 3) 104.0 empty_fs (example_table 3));
      vm_compute; reflexivity.
Defined.

(** C9.  Every row of the finished table whose [event_type] is ["response"]
    keeps the [nr_frames] that was logged for it. *)
Theorem close_response_nr_frames_kept self clock fs df i :
  snd (close self clock fs) = Return df ->
  DataFrame.event_type df !! i = Some "response" ->
  DataFrame.nr_frames df !! i = Log.nr_frames (log self) !! i.
Proof.
  intros H Hi.
  destruct (close_finalized _ _ _ _ H) as (lo & _ & _ & _ & Hev & _ & _ & Hset).
  rewrite Hev in Hi.
  apply (loc_set_unselected _ _ _ _ i Hset). by apply series_ne_false.
Qed.

Lemma close_response_nr_frames_kept_witness :
  DataFrame.nr_frames (example_table 3) !! 2%nat = Log.nr_frames example_log !! 2%nat.
Proof.
  apply (close_response_nr_frames_kept (example_session 3) 104.0 empty_fs
           (example_table 3) 2); vm_compute; reflexivity.
Defined.

(** C8, corrected.  On the example run (onsets 0.0, 2.0, 2.05, the last one
    a response; start 100.0; clock 104.0 at the final flip) [close] returns
    the table whose row 0 has duration 2.0 and [nr_frames] 8, whose row 1 has
    duration 104.0 - 2.05, the float written 101.95, and the frame counter as
    [nr_frames], and whose row 2 has a null duration. *)
Theorem close_example frames :
  snd (close (example_session frames) 104.0 empty_fs) = Return (example_table frames)
  /\ DataFrame.duration (example_table frames) = [2.0; 104.0 - 2.05; nan]
  /\ DataFrame.nr_frames (example_table frames) = [8; frames; 0]%Z.
Proof. repeat split; vm_compute; reflexivity. Qed.

(** C8, as stated, fails: row 1 of the example does not get duration 102.0. *)
Lemma close_example_row1_not_102 :
  ~ (exists df,
        snd (close (example_session 0) 104.0 empty_fs) = Return df
        /\ DataFrame.duration df !! 0%nat = Some 2.0
        /\ DataFrame.nr_frames df !! 0%nat = Some 8%Z
        /\ DataFrame.duration df !! 1%nat = Some 102.0
        /\ DataFrame.duration df !! 2%nat = Some nan).
Proof.
  intros (df & H & _ & _ & H1 & _).
  apply (f_equal (fun o => match o with
                           | Return d => DataFrame.duration d !! 1%nat
                           | Raise _ => None
                           end)) in H.
  rewrite H1 in H.
  apply (f_equal (fun d => match d with
                           | Some x => PrimFloat.eqb x 102.0
                           | None => false
                           end)) in H.
  vm_compute in H. discriminate.
Qed.

(** C6, corrected.  [close] on a log without events raises [IndexError]
    at its second statement, before it creates a directory or writes a file:
    the store is left as it was. *)
Theorem close_empty_log self clock fs :
  Log.onset (log self) = [] ->
  close self clock fs = (fs, Raise (Exc "IndexError" "list index out of range")).
Proof. intros H. unfold close, bind, lift, getitem_last. by rewrite H. Qed.

Lemma close_empty_log_witness :
  close empty_session 104.0 empty_fs
  = (empty_fs, Raise (Exc "IndexError" "list index out of range")).
Proof. apply (close_empty_log empty_session 104.0 empty_fs). reflexivity. Defined.

(** C6, as stated, fails: the exception raised on an empty log is not an
    [EmptyLogError]. *)
Lemma close_empty_log_not_EmptyLogError :
  ~ ((exists e, snd (close empty_session 104.0 empty_fs) = Raise e
                /\ exc_class e = "EmptyLogError")
     /\ fst (close empty_session 104.0 empty_fs) = empty_fs).
Proof.
  intros [(e & H & Hcls) _]. vm_compute in H. injection H as <-. discriminate.
Qed.

End SessionSpec.

(** ** [save_experiment] *)

Module UtilsSpec.
Import Py Utils.

(** C10.  With an engine other than ["pickle"] and ["joblib"],
    [save_experiment] raises the [ValueError] of its last branch and leaves
    the store as it was.  With one of the two engines it raises no exception
    of its own, that [ValueError] included: whatever is raised then comes
    from inside the serialiser. *)
Theorem save_experiment_engine {Obj Table} (env : Serializers Obj Table)
    (session : Obj) (output_str engine : string) (fs : FS Table) :
  (engine <> "pickle" -> engine <> "joblib" ->
   save_experiment env session output_str engine fs = (fs, Raise engine_not_recognized))
  /\ (engine = "pickle" \/ engine = "joblib" ->
      forall cls msg,
        snd (save_experiment env session output_str engine fs) <> Raise (Exc cls msg)).
Proof.
  split.
  - intros Hp Hj. unfold save_experiment.
    apply String.eqb_neq in Hp, Hj. by rewrite Hp, Hj.
  - intros [-> | ->] cls msg; unfold save_experiment; simpl;
      unfold bind, write_file, modify, raise, ret.
    + destruct (pickle_dump env session) as [written [[c m]|]]; simpl; discriminate.
    + destruct (joblib_dump env session _ fs) as [fs' [[c m]|]]; simpl; discriminate.
Qed.

Lemma save_experiment_engine_witness :
  save_experiment quiet_serializers tt "sub-01" "json" no_files
  = (no_files, Raise engine_not_recognized)
  /\ snd (save_experiment quiet_serializers tt "sub-01" "joblib" no_files)
     <> Raise engine_not_recognized.
Proof.
  split.
  - apply (save_experiment_engine quiet_serializers tt "sub-01" "json" no_files);
      discriminate.
  - apply (save_experiment_engine quiet_serializers tt "sub-01" "joblib" no_files).
    right. reflexivity.
Defined.

End UtilsSpec.

(** ** [_load_settings] *)

Module SettingsSpec.
Import Py Settings.

Lemma dict_get_set {A} (k k' : string) (v : A) (d : list (string * A)) :
  dict_get k (dict_set k' v d) = if String.eqb k k' then Some v else dict_get k d.
Proof.
  induction d as [|[k0 v0] d IH]; simpl.
  - by destruct (String.eqb k k').
  - destruct (String.eqb_spec k' k0) as [->|Hne]; simpl.
    + by destruct (String.eqb k k0).
    + destruct (String.eqb_spec k k0) as [->|?].
      * destruct (String.eqb_spec k0 k'); [congruence|done].
      * done.
Qed.

Lemma dict_get_absent {A} (k : string) (d : list (string * A)) :
  k ∉ d.*1 -> dict_get k d = None.
Proof.
  induction d as [|[k0 v0] d IH]; simpl; [done|].
  intros Hk. apply not_elem_of_cons in Hk as [Hne Hk].
  destruct (String.eqb_spec k k0); [done | by apply IH].
Qed.

(** The dict that [default_settings.update(user_settings)] leaves behind is
    the key-by-key override: the user's value where the user has the key, the
    default's value elsewhere. *)
Lemma dict_merge_override {A} (k : string) (d u : list (string * A)) :
  NoDup u.*1 ->
  dict_get k (dict_merge d u)
  = match dict_get k u with Some v => Some v | None => dict_get k d end.
Proof.
  unfold dict_merge. revert d.
  induction u as [|[k' v] u IH]; intros d Hnd; simpl; [done|].
  apply NoDup_cons in Hnd as [Hk' Hnd]. rewrite IH by done.
  destruct (String.eqb_spec k k') as [->|Hne].
  - rewrite (dict_get_absent k' u) by done.
    by rewrite dict_get_set, String.eqb_refl.
  - rewrite dict_get_set. apply String.eqb_neq in Hne. by rewrite Hne.
Qed.

(** With a user settings file that holds a mapping, [settings] is bound to
    the [None] that [dict.update] returns: [null] goes to the settings copy
    on disk, and subscripting [settings] raises. *)
Lemma load_settings_user_mapping default_settings upd s w path u :
  settings_file s = Some path ->
  yaml_files w !! path = Some (PDict u) ->
  snd (_load_settings default_settings upd s w)
  = Raise (Exc "TypeError" "'NoneType' object is not subscriptable")
  /\ yaml_files (fst (_load_settings default_settings upd s w)) !! settings_out s
     = Some PNone.
Proof.
  intros Hfile Hdoc.
  unfold _load_settings, bind, get, lift, modify, ret. rewrite Hfile. simpl.
  rewrite Hdoc. simpl. split; [done|].
  destruct (decide _); simpl; by rewrite lookup_insert_eq.
Qed.

(** C7 fails on the code.  On the example run (a user file that overrides
    [window]), [_load_settings] does not return the overriding mapping: it
    raises [TypeError], and the settings copy written to disk is [null]. *)
Theorem load_settings_example_raises upd :
  snd (_load_settings example_defaults upd example_self example_world)
  = Raise (Exc "TypeError" "'NoneType' object is not subscriptable")
  /\ yaml_files (fst (_load_settings example_defaults upd example_self example_world))
       !! settings_out example_self
     = Some PNone.
Proof.
  apply (load_settings_user_mapping _ _ _ _ "/home/exp/my_settings.yml"
           [("window", PDict [("size", PList [PInt 800; PInt 600])])]);
    reflexivity.
Qed.

End SettingsSpec.

(** ** More on [Session.close]: the store, the shape of the table, its last row *)

Module SessionMore.
Import Py Pandas PandasFacts Session SessionFacts.

Local Open Scope float_scope.

Section Masks.
Context {A : Type}.
Implicit Types (mask : list bool) (col vals : list A).





End Masks.









End SessionMore.

(** ** More on [_load_settings]: a missing file, the copy of the defaults *)

Module SettingsMore.
Import Py Settings.




(** X5.  With a settings file that is not on disk, [_load_settings] raises
    the [IOError] that names the file, and leaves files, directories and
    preferences as they were. *)
Theorem load_settings_missing_file default_settings upd s w path :
  settings_file s = Some path -> yaml_files w !! path = None ->
  _load_settings default_settings upd s w
  = (w, Raise (Exc "IOError" ("Settings-file (" ++ path ++ ") does not exist!"))).
Proof.
  intros Hfile Hnone.
  unfold _load_settings, bind, get, lift, modify, ret, raise.
  by rewrite Hfile; simpl; rewrite Hnone.
Qed.

Lemma load_settings_missing_file_witness :
  _load_settings example_defaults Examples.no_update Examples.missing_self example_world
  = (example_world,
     Raise (Exc "IOError" "Settings-file (/home/exp/absent.yml) does not exist!")).
Proof.
  apply (load_settings_missing_file example_defaults Examples.no_update
           Examples.missing_self example_world "/home/exp/absent.yml");
    vm_compute; reflexivity.
Defined.





End SettingsMore.
